(** * BluePay API: the payment handlers of [main.py] over a document store

    The handlers of [src/main.py] ([authorize_payment], [capture_payment],
    [list_payments]) and the [Payment] schema of [src/schemas.py], embedded
    as functions in a state-and-exception monad over a model of the MongoDB
    database the module-level handle [db] points to.

    A MongoDB document is a Python [dict]: a finite map from field names to
    values.  A collection is the list of its documents in insertion order. *)

From Stdlib Require Import ZArith Ascii String List DecimalString.
From stdpp Require Import gmap strings list fin_maps.

Local Open Scope Z_scope.

(** ** Values and documents *)

(** A BSON [ObjectId] is a 12-byte value. *)
Definition oid := N.
Bind Scope N_scope with oid.

(** An instant ([datetime.datetime]). *)
Definition datetime := Z.

(** The Python values that occur in the documents of this API. *)
Inductive value :=
| VNone
| VInt (n : Z)
| VStr (s : string)
| VOid (o : oid)
| VDatetime (t : datetime).

#[global] Instance value_eq_dec : EqDecision value.
Proof. solve_decision. Defined.

Abbreviation document := (gmap string value).

(** A database maps collection names to collections; [db[name]] of a name
    never written to is the empty collection. *)
Abbreviation database := (gmap string (list document)).

Definition collection (c : string) (d : database) : list document :=
  default [] (d !! c).

(** ** The libraries the module calls

    [bson.ObjectId] and [datetime] are not part of the repository; what
    the handlers use of them is taken as an interface.  [ObjectId s] is the
    constructor applied to a [str]: [None] stands for the exception it
    raises on a string that is not an object id. *)
Class Runtime := {
  ObjectId : string -> option oid;
  oid_str : oid -> string;
  isoformat : datetime -> string;
  datetime_str : datetime -> string
}.

(** ** Exceptions, store accesses and the handler monad *)

Inductive exn :=
| HTTPException (status_code : Z) (detail : string)
| RequestValidationError (fields : list string)
| Exception (msg : string).

(** One entry per call of a collection method. *)
Inductive access :=
| AFindOne (c : string) (filt : document)
| AUpdateOne (c : string) (filt : document) (upd : document)
| AInsertOne (c : string) (doc : document)
| AFind (c : string) (filt : document).

(** [db] is the module-level handle ([None] when the connection was not
    configured); [log] records the store accesses made so far. *)
Record world := World { db : option database; log : list access }.

Definition M (A : Type) : Type := world -> (exn + A) * world.

Definition ret {A} (a : A) : M A := fun w => (inr a, w).
Definition raise {A} (e : exn) : M A := fun w => (inl e, w).
Definition bind {A B} (m : M A) (k : A -> M B) : M B :=
  fun w => match m w with
           | (inr a, w') => k a w'
           | (inl e, w') => (inl e, w')
           end.
(** [try: m  except Exception as e: h e] *)
Definition try_except {A} (m : M A) (h : exn -> M A) : M A :=
  fun w => match m w with
           | (inr a, w') => (inr a, w')
           | (inl e, w') => h e w'
           end.

Notation "x <~ m ;; k" := (bind m (fun x => k))
  (at level 100, m at next level, right associativity).

(** [str(e)] *)
Definition exn_str (e : exn) : string :=
  match e with
  | HTTPException _ detail => detail
  | RequestValidationError _ => "validation error"
  | Exception msg => msg
  end.

(** ** The collection methods of the driver *)

(** A document matches a filter when it carries every field of the filter
    with the same value. *)
Definition matches (filt d : document) : Prop := filt ⊆ d.

#[global] Instance matches_dec filt d : Decision (matches filt d).
Proof. unfold matches. apply _. Defined.

(** The ids already used in a collection, and the one [insert_one] gives
    to the next document: any id not yet in the collection. *)
Definition doc_oid (d : document) : N :=
  match d !! "_id" with Some (VOid o) => o | _ => 0%N end.

Definition new_oid (l : list document) : oid :=
  N.succ (foldr N.max 0%N (doc_oid <$> l)).

Fixpoint update_first (filt upd : document) (l : list document) : list document :=
  match l with
  | [] => []
  | d :: l' => if decide (matches filt d) then (upd ∪ d) :: l'
               else d :: update_first filt upd l'
  end.

(** Subscripting the handle: [db[c]] raises when [db] is [None]. *)
Definition with_db {A} (a : access) (f : database -> A * database) : M A :=
  fun w => match db w with
           | None => (inl (Exception "'NoneType' object is not subscriptable"), w)
           | Some d => let '(r, d') := f d in
                       (inr r, World (Some d') (log w ++ [a]))
           end.

(** [db[c].find_one(filt)] *)
Definition find_one (c : string) (filt : document) : M (option document) :=
  with_db (AFindOne c filt)
    (fun d => (head (filter (matches filt) (collection c d)), d)).

(** [db[c].update_one(filt, {"$set": upd})] *)
Definition update_one (c : string) (filt upd : document) : M unit :=
  with_db (AUpdateOne c filt upd)
    (fun d => (tt, <[c := update_first filt upd (collection c d)]> d)).

(** [db[c].insert_one(doc)]: the document gets a new ["_id"] and goes to
    the end of the collection. *)
Definition insert_one (c : string) (doc : document) : M oid :=
  with_db (AInsertOne c doc)
    (fun d => let o := new_oid (collection c d) in
              (o, <[c := collection c d ++ [<["_id" := VOid o]> doc]]> d)).

(** [db[c].find(filt)] *)
Definition find (c : string) (filt : document) : M (list document) :=
  with_db (AFind c filt)
    (fun d => (filter (matches filt) (collection c d), d)).

(** ** The [Payment] schema ([schemas.py]) *)

(** [Literal['authorized','captured','failed']] *)
Inductive PaymentStatus := authorized | captured | failed.

Definition status_str (s : PaymentStatus) : string :=
  match s with
  | authorized => "authorized"
  | captured => "captured"
  | failed => "failed"
  end.

Definition parse_status (s : string) : option PaymentStatus :=
  if decide (s = "authorized") then Some authorized
  else if decide (s = "captured") then Some captured
  else if decide (s = "failed") then Some failed
  else None.

(** A validated [Payment] instance. *)
Record Payment := {
  amount : Z;
  currency : string;
  description : option string;
  customer_id : option string;
  status : PaymentStatus
}.

(** The JSON body of a request, decoded to the field types; the optional
    fields may be absent. *)
Record PaymentBody := {
  body_amount : Z;
  body_currency : string;
  body_description : option string;
  body_customer_id : option string;
  body_status : option string
}.

(** The constraints of the fields: [amount] has [ge=1], [currency] has
    [min_length=3] and [max_length=3], [status] is one of the literals and
    defaults to ['authorized'].  The result lists the fields in error. *)
Definition Payment_errors (b : PaymentBody) : list string :=
  (if decide (1 <= body_amount b) then [] else ["amount"%string]) ++
  (if decide (3 <= String.length (body_currency b) <= 3)%nat
   then [] else ["currency"%string]) ++
  match body_status b with
  | None => []
  | Some s => match parse_status s with
              | Some _ => []
              | None => ["status"%string]
              end
  end.

(** What the constraints accept. *)
Definition Payment_ok (b : PaymentBody) : Prop :=
  1 <= body_amount b
  /\ String.length (body_currency b) = 3%nat
  /\ (body_status b = None \/ exists st, body_status b = Some (status_str st)).

Definition Payment_validate (b : PaymentBody) : exn + Payment :=
  match Payment_errors b with
  | [] => inr {| amount := body_amount b;
                 currency := body_currency b;
                 description := body_description b;
                 customer_id := body_customer_id b;
                 status := default authorized (body_status b ≫= parse_status) |}
  | errs => inl (RequestValidationError errs)
  end.

Definition opt_str (o : option string) : value :=
  match o with
  | Some s => VStr s
  | None => VNone
  end.

(** [payload.model_dump()] *)
Definition model_dump (p : Payment) : document :=
  {[ "amount"%string := VInt (amount p);
     "currency"%string := VStr (currency p);
     "description"%string := opt_str (description p);
     "customer_id"%string := opt_str (customer_id p);
     "status"%string := VStr (status_str (status p)) ]}.

(** ** The other schemas ([schemas.py]) *)

(** [Customer]: [name] and [email] are required strings with no further
    constraint, [business] is optional. *)
Record Customer := {
  name : string;
  email : string;
  business : option string
}.

(** [model_dump()] of a [Customer]. *)
Definition Customer_model_dump (c : Customer) : document :=
  {[ "name"%string := VStr (name c);
     "email"%string := VStr (email c);
     "business"%string := opt_str (business c) ]}.

(** [User]: three required strings, [age] optional with [ge=0] and
    [le=120], [is_active] defaulting to [True]. *)
Module UserSchema.

Record User := {
  name : string;
  email : string;
  address : string;
  age : option Z;
  is_active : bool
}.

(** The JSON body, decoded to the field types. *)
Record UserBody := {
  body_name : string;
  body_email : string;
  body_address : string;
  body_age : option Z;
  body_is_active : option bool
}.

Definition User_errors (b : UserBody) : list string :=
  match body_age b with
  | None => []
  | Some a => if decide (0 <= a /\ a <= 120) then [] else ["age"%string]
  end.

Definition User_validate (b : UserBody) : exn + User :=
  match User_errors b with
  | [] => inr {| name := body_name b;
                 email := body_email b;
                 address := body_address b;
                 age := body_age b;
                 is_active := default true (body_is_active b) |}
  | errs => inl (RequestValidationError errs)
  end.

End UserSchema.

(** [hasattr(v, "isoformat")] *)
Definition has_isoformat (v : value) : bool :=
  match v with
  | VDatetime _ => true
  | _ => false
  end.

(** ** The handlers ([main.py]) *)

Section Handlers.
Context `{Runtime}.

(** [str(v)] *)
Definition py_str (v : value) : string :=
  match v with
  | VNone => "None"
  | VInt n => NilZero.string_of_int (Z.to_int n)
  | VStr s => s
  | VOid o => oid_str o
  | VDatetime t => datetime_str t
  end.

(** Only the instants have an [isoformat] attribute. *)
Definition iso_value (v : value) : value :=
  match v with
  | VDatetime t => VStr (isoformat t)
  | _ => v
  end.

Definition serialize_doc (doc : document) : document :=
  let d := match doc !! "_id" with
           | Some v => <["id" := VStr (py_str v)]> (delete "_id" doc)
           | None => doc
           end in
  iso_value <$> d.

(** Modelled from the spec: [database.create_document] is not among the
    sources.  It is the ledger store's [put_new(record) -> id] of §4.1:
    the record is persisted under a newly generated id and the id is
    returned, here in the text form [IdModel] carries.  With no
    database it raises. *)
Definition create_document (c : string) (data : document) : M string :=
  o <~ insert_one c data ;;
  ret (oid_str o).

(** Modelled from the spec: [database.get_documents] is not among the
    sources.  It is the listing of §4.3 and §4.4: the records of the
    collection that match the filter exactly, ordered by creation time
    ascending and bounded by [limit].  With no database it raises. *)
Definition get_documents (c : string) (filt : document) (limit : Z)
  : M (list document) :=
  docs <~ find c filt ;;
  ret (take (Z.to_nat limit) docs).

(** Reading the module-level handle. *)
Definition get_db : M (option database) := fun w => (inr (db w), w).

Definition authorize_payment (payload : Payment) : M document :=
  try_except
    (let data := model_dump payload in
     let data := <["status" := VStr "authorized"]> data in
     new_id <~ create_document "payment" data ;;
     ret {["id"%string := VStr new_id]})
    (fun e => raise (HTTPException 500 (exn_str e))).

(** The route [POST /api/payments]: the framework validates the body
    against the schema and calls the handler on the instance, or answers
    with the validation error without calling it. *)
Definition post_api_payments (body : PaymentBody) : M document :=
  match Payment_validate body with
  | inl e => raise e
  | inr payload => authorize_payment payload
  end.

Definition capture_payment (payment_id : string) : M document :=
  h <~ get_db ;;
  match h with
  | None => raise (HTTPException 500 "Database not available")
  | Some _ =>
    match ObjectId payment_id with
    | None => raise (HTTPException 400 "Invalid payment id")
    | Some o =>
      let q : document := {["_id"%string := VOid o]} in
      doc <~ find_one "payment" q ;;
      match doc with
      | None => raise (HTTPException 404 "Payment not found")
      | Some doc =>
        if decide (doc = ∅) then raise (HTTPException 404 "Payment not found")
        else if decide (doc !! "status" = Some (VStr "captured"))
        then ret (serialize_doc doc)
        else
          _ <~ update_one "payment" q {["status"%string := VStr "captured"]} ;;
          updated <~ find_one "payment" q ;;
          match updated with
          | Some u => ret (serialize_doc u)
          | None => raise (Exception "'NoneType' object is not a mapping")
          end
      end
    end
  end.

Definition list_payments (limit : Z) (status : option string)
  : M (list document) :=
  try_except
    (let filt : document :=
       match status with
       | Some s => if decide (s = "") then ∅ else {["status"%string := VStr s]}
       | None => ∅
       end in
     docs <~ get_documents "payment" filt limit ;;
     ret (serialize_doc <$> docs))
    (fun e => raise (HTTPException 500 (exn_str e))).

(** [POST /api/customers]: the payload goes to the store as the record of
    its fields. *)
Definition create_customer (payload : Customer) : M document :=
  try_except
    (new_id <~ create_document "customer" (Customer_model_dump payload) ;;
     ret {["id"%string := VStr new_id]})
    (fun e => raise (HTTPException 500 (exn_str e))).

(** [GET /api/customers] *)
Definition list_customers (limit : Z) : M (list document) :=
  try_except
    (docs <~ get_documents "customer" ∅ limit ;;
     ret (serialize_doc <$> docs))
    (fun e => raise (HTTPException 500 (exn_str e))).

End Handlers.

(** ** An instance to run the handlers on

    Object ids written as 24 hexadecimal digits, instants as their number
    of seconds. *)
Module Hex.

Definition digit (a : ascii) : option N :=
  let n := N_of_ascii a in
  if decide (48 <= n <= 57)%N then Some (n - 48)%N
  else if decide (97 <= n <= 102)%N then Some (n - 87)%N
  else if decide (65 <= n <= 70)%N then Some (n - 55)%N
  else None.

Fixpoint parse (acc : N) (s : string) : option N :=
  match s with
  | EmptyString => Some acc
  | String a s' => match digit a with
                   | Some v => parse (16 * acc + v)%N s'
                   | None => None
                   end
  end.

Definition of_digit (n : N) : ascii :=
  if decide (n < 10)%N then ascii_of_N (48 + n) else ascii_of_N (87 + n).

Fixpoint print (k : nat) (n : N) (acc : string) : string :=
  match k with
  | O => acc
  | S k' => print k' (n / 16)%N (String (of_digit (n mod 16)%N) acc)
  end.

#[export] Instance runtime : Runtime := {|
  ObjectId s := if decide (String.length s = 24%nat) then parse 0%N s else None;
  oid_str o := print 24 o EmptyString;
  isoformat t := NilZero.string_of_int (Z.to_int t);
  datetime_str t := NilZero.string_of_int (Z.to_int t)
|}.

End Hex.

(** ** Stored payments *)

(** The filter [{"_id": oid}]. *)
Definition by_id (o : oid) : document := {["_id"%string := VOid o]}.

(** The update [{"$set": {"status": "captured"}}]. *)
Abbreviation set_captured := ({["status"%string := VStr "captured"]} : document).

(** The payment record stored under an id: the document
    [db["payment"].find_one({"_id": oid})] yields. *)
Definition stored_payment (d : database) (o : oid) : option document :=
  head (filter (matches (by_id o)) (collection "payment" d)).

(** The payment records of a world, in creation order. *)
Definition payments (w : world) : list document :=
  match db w with
  | Some d => collection "payment" d
  | None => []
  end.

(** ** A ledger to run the handlers on *)

Definition pay (o : oid) (amt : Z) (cur st : string) : document :=
  {[ "_id"%string := VOid o;
     "amount"%string := VInt amt;
     "currency"%string := VStr cur;
     "description"%string := VNone;
     "customer_id"%string := VNone;
     "status"%string := VStr st ]}.

Definition ledger : database :=
  {[ "payment"%string :=
       [ pay 1 1000 "USD" "authorized";
         pay 2 250 "EUR" "captured";
         pay 3 900 "GBP" "failed";
         pay 4 75 "USD" "captured" ] ]}.

Definition empty_world : world := World (Some ∅) [].

(** A request body with no description. *)
Definition body (amt : Z) (cur : string) (cid st : option string) : PaymentBody :=
  {| body_amount := amt;
     body_currency := cur;
     body_description := None;
     body_customer_id := cid;
     body_status := st |}.

(** ** Facts about the store *)

Lemma matches_by_id (o : oid) (x : document) :
  matches (by_id o) x <-> x !! "_id" = Some (VOid o).
Proof. unfold matches, by_id. apply map_singleton_subseteq_l. Qed.

Lemma head_filter_Some {A} (P : A -> Prop) `{!forall x, Decision (P x)}
    (l : list A) (x : A) :
  head (filter P l) = Some x -> P x /\ x ∈ l.
Proof.
  intros Hh. apply head_Some_elem_of in Hh.
  by apply list_elem_of_filter in Hh.
Qed.

Lemma stored_payment_Some (d : database) (o : oid) (doc : document) :
  stored_payment d o = Some doc ->
  doc !! "_id" = Some (VOid o) /\ doc ∈ collection "payment" d.
Proof.
  unfold stored_payment. intros Hs. apply head_filter_Some in Hs.
  destruct Hs as [Hm Hin]. split; [by apply matches_by_id | done].
Qed.

Lemma stored_payment_nonempty (d : database) (o : oid) (doc : document) :
  stored_payment d o = Some doc -> doc ≠ ∅.
Proof.
  intros Hs%stored_payment_Some Heq. destruct Hs as [Hid _].
  rewrite Heq in Hid. by rewrite lookup_empty in Hid.
Qed.

Lemma collection_insert (c : string) (l : list document) (d : database) :
  collection c (<[c := l]> d) = l.
Proof. unfold collection. by rewrite lookup_insert_eq. Qed.

Lemma collection_insert_ne (c c' : string) (l : list document) (d : database) :
  c ≠ c' -> collection c' (<[c := l]> d) = collection c' d.
Proof. intros Hne. unfold collection. by rewrite lookup_insert_ne. Qed.

(** [update_one] rewrites the first match, which [find_one] then finds. *)
Lemma head_filter_update_first (q upd doc : document) (l : list document) :
  head (filter (matches q) l) = Some doc ->
  matches q (upd ∪ doc) ->
  head (filter (matches q) (update_first q upd l)) = Some (upd ∪ doc).
Proof.
  induction l as [|x l IH]; simpl; [done|].
  intros Hh Hm. destruct (decide (matches q x)) as [Hx|Hx].
  - rewrite filter_cons_True in Hh by done. simpl in Hh.
    injection Hh as ->. by rewrite filter_cons_True.
  - rewrite filter_cons_False in Hh by done.
    rewrite filter_cons_False by done. by apply IH.
Qed.

Lemma captured_matches (o : oid) (doc : document) :
  doc !! "_id" = Some (VOid o) ->
  matches (by_id o) ({["status"%string := VStr "captured"]} ∪ doc).
Proof.
  intros Hid. apply matches_by_id.
  rewrite lookup_union_r; [done|]. by rewrite lookup_singleton_ne.
Qed.

(** The collection methods on an available database. *)
Lemma find_one_run (c : string) (q : document) (d : database) (l : list access) :
  find_one c q (World (Some d) l)
  = (inr (head (filter (matches q) (collection c d))),
     World (Some d) (l ++ [AFindOne c q])).
Proof. reflexivity. Qed.

Lemma update_one_run (c : string) (q upd : document) (d : database)
    (l : list access) :
  update_one c q upd (World (Some d) l)
  = (inr tt,
     World (Some (<[c := update_first q upd (collection c d)]> d))
           (l ++ [AUpdateOne c q upd])).
Proof. reflexivity. Qed.

Lemma insert_one_run (c : string) (doc : document) (d : database)
    (l : list access) :
  insert_one c doc (World (Some d) l)
  = (inr (new_oid (collection c d)),
     World (Some (<[c := collection c d
                         ++ [<["_id" := VOid (new_oid (collection c d))]> doc]]> d))
           (l ++ [AInsertOne c doc])).
Proof. reflexivity. Qed.

Lemma find_run (c : string) (q : document) (d : database) (l : list access) :
  find c q (World (Some d) l)
  = (inr (filter (matches q) (collection c d)),
     World (Some d) (l ++ [AFind c q])).
Proof. reflexivity. Qed.

Section HandlerFacts.
Context `{Runtime}.

(** A field other than ["_id"] and ["id"] that holds a string survives
    serialisation. *)
Lemma serialize_doc_str (doc : document) (k s : string) :
  k ≠ "_id"%string -> k ≠ "id"%string ->
  doc !! k = Some (VStr s) ->
  serialize_doc doc !! k = Some (VStr s).
Proof.
  intros Hk1 Hk2 Hs. unfold serialize_doc. rewrite lookup_fmap.
  destruct (doc !! "_id") as [v|].
  - rewrite lookup_insert_ne by done. rewrite lookup_delete_ne by done.
    by rewrite Hs.
  - by rewrite Hs.
Qed.

(** The run of [capture_payment] on a payment already captured: one
    read, no write. *)
Lemma capture_payment_captured_run (pid : string) (o : oid) (d : database)
    (l : list access) (doc : document) :
  ObjectId pid = Some o ->
  stored_payment d o = Some doc ->
  doc !! "status" = Some (VStr "captured") ->
  capture_payment pid (World (Some d) l)
  = (inr (serialize_doc doc),
     World (Some d) (l ++ [AFindOne "payment" (by_id o)])).
Proof.
  intros Ho Hs Hst. pose proof (stored_payment_nonempty _ _ _ Hs) as Hne.
  unfold capture_payment, bind, get_db. cbn [db]. rewrite Ho.
  fold (by_id o). rewrite find_one_run. fold (stored_payment d o).
  rewrite Hs. destruct (decide (doc = ∅)); [done|].
  destruct (decide (doc !! "status" = Some (VStr "captured"))); done.
Qed.

(** The run on a stored payment in any other status: the status is set
    to ['captured'] and the record read back. *)
Lemma capture_payment_other_run (pid : string) (o : oid) (d : database)
    (l : list access) (doc : document) :
  ObjectId pid = Some o ->
  stored_payment d o = Some doc ->
  doc !! "status" ≠ Some (VStr "captured") ->
  let upd : document := {["status"%string := VStr "captured"]} in
  capture_payment pid (World (Some d) l)
  = (inr (serialize_doc (upd ∪ doc)),
     World (Some (<["payment"%string :=
                      update_first (by_id o) upd (collection "payment" d)]> d))
           (l ++ [AFindOne "payment" (by_id o);
                  AUpdateOne "payment" (by_id o) upd;
                  AFindOne "payment" (by_id o)])).
Proof.
  intros Ho Hs Hst upd. pose proof (stored_payment_nonempty _ _ _ Hs) as Hne.
  pose proof (stored_payment_Some _ _ _ Hs) as [Hid _].
  unfold capture_payment, bind, get_db. cbn [db]. rewrite Ho.
  fold (by_id o). rewrite find_one_run. fold (stored_payment d o).
  rewrite Hs. destruct (decide (doc = ∅)); [done|].
  destruct (decide (doc !! "status" = Some (VStr "captured"))); [done|].
  rewrite update_one_run, find_one_run, collection_insert.
  rewrite (head_filter_update_first _ _ doc).
  - fold upd. by rewrite <- !app_assoc.
  - exact Hs.
  - by apply captured_matches.
Qed.

(** Without a database the handler answers 500 before it looks at the
    id. *)
Lemma capture_payment_no_database (pid : string) (l : list access) :
  capture_payment pid (World None l)
  = (inl (HTTPException 500 "Database not available"), World None l).
Proof. reflexivity. Qed.

End HandlerFacts.

(** ** Capture *)

Section Capture.
Context `{Runtime}.

Lemma stored_payment_after_update (o : oid) (d : database) (doc : document) :
  stored_payment d o = Some doc ->
  stored_payment
    (<["payment"%string :=
         update_first (by_id o) set_captured (collection "payment" d)]> d) o
  = Some (set_captured ∪ doc).
Proof.
  intros Hs. pose proof (stored_payment_Some _ _ _ Hs) as [Hid _].
  unfold stored_payment. rewrite collection_insert.
  apply head_filter_update_first; [exact Hs | by apply captured_matches].
Qed.

Lemma set_captured_status (doc : document) :
  (set_captured ∪ doc) !! "status" = Some (VStr "captured").
Proof. apply lookup_union_Some_l. by rewrite lookup_singleton_eq. Qed.

(** C1. Capturing a stored payment whose status is already ['captured']
    returns the existing record, whose status is ['captured'], without
    error; and for a stored payment in any status a capture succeeds with
    a record of status ['captured'] and a second capture returns that
    same record again. *)
Theorem capture_payment_idempotent (pid : string) (o : oid) (d : database)
    (l : list access) (doc : document) :
  ObjectId pid = Some o ->
  stored_payment d o = Some doc ->
  let w := World (Some d) l in
  (doc !! "status" = Some (VStr "captured") ->
     fst (capture_payment pid w) = inr (serialize_doc doc)
     /\ serialize_doc doc !! "status" = Some (VStr "captured"))
  /\ (exists r : document,
        fst (capture_payment pid w) = inr r
        /\ r !! "status" = Some (VStr "captured")
        /\ fst (capture_payment pid (snd (capture_payment pid w))) = inr r).
Proof.
  intros Ho Hs w. split.
  - intros Hst. unfold w.
    rewrite (capture_payment_captured_run pid o d l doc) by done.
    split; [done|]. by apply serialize_doc_str.
  - unfold w.
    destruct (decide (doc !! "status" = Some (VStr "captured"))) as [Hst|Hst].
    + exists (serialize_doc doc).
      rewrite (capture_payment_captured_run pid o d l doc) by done.
      cbn [fst snd].
      rewrite (capture_payment_captured_run pid o d _ doc) by done.
      split; [done|]. split; [|done]. by apply serialize_doc_str.
    + exists (serialize_doc (set_captured ∪ doc)).
      rewrite (capture_payment_other_run pid o d l doc) by done.
      cbn [fst snd].
      rewrite (capture_payment_captured_run pid o _ _ (set_captured ∪ doc)).
      * split; [done|]. split; [|done].
        apply serialize_doc_str; [done..|]. apply set_captured_status.
      * done.
      * by apply stored_payment_after_update.
      * apply set_captured_status.
Qed.

(** C2, as the code has it. Capturing a stored payment whose status is
    ['failed'] does not fail: the stored status is set to ['captured'] and
    the updated record is returned. *)
Theorem capture_payment_failed_is_captured (pid : string) (o : oid)
    (d : database) (l : list access) (doc : document) :
  ObjectId pid = Some o ->
  stored_payment d o = Some doc ->
  doc !! "status" = Some (VStr "failed") ->
  exists (r : document) (w' : world) (d' : database),
    capture_payment pid (World (Some d) l) = (inr r, w')
    /\ r = serialize_doc (set_captured ∪ doc)
    /\ r !! "status" = Some (VStr "captured")
    /\ db w' = Some d'
    /\ stored_payment d' o = Some (set_captured ∪ doc)
    /\ (set_captured ∪ doc) !! "status" = Some (VStr "captured").
Proof.
  intros Ho Hs Hst. eexists _, _, _.
  rewrite (capture_payment_other_run pid o d l doc); [|done..|].
  - split; [reflexivity|]. split; [reflexivity|]. split.
    { apply serialize_doc_str; [done..|]. apply set_captured_status. }
    split; [reflexivity|]. split.
    { by apply stored_payment_after_update. }
    apply set_captured_status.
  - rewrite Hst. discriminate.
Qed.

(** C9. Capturing a payment whose status is already ['captured'] writes
    nothing: the database is the same afterwards, so the stored record
    is the same in all its fields, and the only store access made is the
    read of the record. *)
Theorem capture_payment_captured_no_write (pid : string) (o : oid)
    (d : database) (l : list access) (doc : document) :
  ObjectId pid = Some o ->
  stored_payment d o = Some doc ->
  doc !! "status" = Some (VStr "captured") ->
  let w' := snd (capture_payment pid (World (Some d) l)) in
  db w' = Some d
  /\ payments w' = collection "payment" d
  /\ (exists d', db w' = Some d' /\ stored_payment d' o = Some doc)
  /\ log w' = l ++ [AFindOne "payment" (by_id o)].
Proof.
  intros Ho Hs Hst.
  rewrite (capture_payment_captured_run pid o d l doc) by done.
  cbn. split; [done|]. split; [done|]. split; [by exists d | done].
Qed.

(** C10. With the database available, [capture_payment] on a string that
    is not an object id raises the 400 error "Invalid payment id" with no
    store access at all; on an object id under which no payment is
    stored it raises the 404 error "Payment not found". *)
Theorem capture_payment_invalid_or_missing (pid : string) (d : database)
    (l : list access) :
  (ObjectId pid = None ->
     capture_payment pid (World (Some d) l)
     = (inl (HTTPException 400 "Invalid payment id"), World (Some d) l))
  /\ (forall o : oid,
        ObjectId pid = Some o ->
        stored_payment d o = None ->
        capture_payment pid (World (Some d) l)
        = (inl (HTTPException 404 "Payment not found"),
           World (Some d) (l ++ [AFindOne "payment" (by_id o)]))).
Proof.
  split.
  - intros Ho. unfold capture_payment, bind, get_db. cbn [db].
    by rewrite Ho.
  - intros o Ho Hs. unfold capture_payment, bind, get_db. cbn [db].
    rewrite Ho. fold (by_id o). rewrite find_one_run.
    fold (stored_payment d o). by rewrite Hs.
Qed.

End Capture.

(** Runs on the ledger, with object ids in hexadecimal. *)
Section CaptureRuns.
Local Existing Instance Hex.runtime.

Lemma capture_payment_idempotent_witness :
@ObjectId Hex.runtime "000000000000000000000002" = Some 2%N
/\ stored_payment ledger 2 = Some (pay 2 250 "EUR" "captured")
/\ let w := World (Some ledger) [] in
   (pay 2 250 "EUR" "captured" !! "status" = Some (VStr "captured") ->
      fst (capture_payment "000000000000000000000002" w)
      = inr (serialize_doc (pay 2 250 "EUR" "captured"))
      /\ serialize_doc (pay 2 250 "EUR" "captured") !! "status"
         = Some (VStr "captured"))
   /\ (exists r : document,
         fst (capture_payment "000000000000000000000002" w) = inr r
         /\ r !! "status" = Some (VStr "captured")
         /\ fst (capture_payment "000000000000000000000002"
                   (snd (capture_payment "000000000000000000000002" w)))
            = inr r).
Proof.
split; [vm_compute; reflexivity|]. split; [vm_compute; reflexivity|].
apply (capture_payment_idempotent (H:=Hex.runtime)
         "000000000000000000000002" 2%N ledger [] (pay 2 250 "EUR" "captured"));
  vm_compute; reflexivity.
Defined.

(** C2 fails on the code. Payment 3 of the ledger is stored with status
    ['failed']; capturing it raises no error, returns a record of status
    ['captured'], and the stored record has moved to ['captured']. *)
Lemma capture_payment_failed_counterexample :
  let run := capture_payment "000000000000000000000003" (World (Some ledger) []) in
  stored_payment ledger 3 = Some (pay 3 900 "GBP" "failed")
  /\ (forall e : exn, fst run <> inl e)
  /\ fst run = inr (serialize_doc (pay 3 900 "GBP" "captured"))
  /\ payments (snd run)
     = [ pay 1 1000 "USD" "authorized";
         pay 2 250 "EUR" "captured";
         pay 3 900 "GBP" "captured";
         pay 4 75 "USD" "captured" ].
Proof.
  cbv zeta. split; [vm_compute; reflexivity|]. split.
  { intros e. vm_compute. discriminate. }
  split; vm_compute; reflexivity.
Qed.

Lemma capture_payment_failed_is_captured_witness :
  @ObjectId Hex.runtime "000000000000000000000003" = Some 3%N
  /\ stored_payment ledger 3 = Some (pay 3 900 "GBP" "failed")
  /\ pay 3 900 "GBP" "failed" !! "status" = Some (VStr "failed")
  /\ exists (r : document) (w' : world) (d' : database),
       capture_payment "000000000000000000000003" (World (Some ledger) [])
       = (inr r, w')
       /\ r = serialize_doc
                ({["status"%string := VStr "captured"]} ∪ pay 3 900 "GBP" "failed")
       /\ r !! "status" = Some (VStr "captured")
       /\ db w' = Some d'
       /\ stored_payment d' 3
          = Some ({["status"%string := VStr "captured"]} ∪ pay 3 900 "GBP" "failed")
       /\ ({["status"%string := VStr "captured"]} ∪ pay 3 900 "GBP" "failed")
            !! "status" = Some (VStr "captured").
Proof.
  split; [vm_compute; reflexivity|]. split; [vm_compute; reflexivity|].
  split; [vm_compute; reflexivity|].
  apply (capture_payment_failed_is_captured (H:=Hex.runtime)
           "000000000000000000000003" 3%N ledger [] (pay 3 900 "GBP" "failed"));
    vm_compute; reflexivity.
Defined.

Lemma capture_payment_captured_no_write_witness :
  @ObjectId Hex.runtime "000000000000000000000004" = Some 4%N
  /\ stored_payment ledger 4 = Some (pay 4 75 "USD" "captured")
  /\ pay 4 75 "USD" "captured" !! "status" = Some (VStr "captured")
  /\ let w' := snd (capture_payment "000000000000000000000004"
                      (World (Some ledger) [])) in
     db w' = Some ledger
     /\ payments w' = collection "payment" ledger
     /\ (exists d', db w' = Some d'
                    /\ stored_payment d' 4 = Some (pay 4 75 "USD" "captured"))
     /\ log w' = [] ++ [AFindOne "payment" (by_id 4)].
Proof.
  split; [vm_compute; reflexivity|]. split; [vm_compute; reflexivity|].
  split; [vm_compute; reflexivity|].
  apply (capture_payment_captured_no_write (H:=Hex.runtime)
           "000000000000000000000004" 4%N ledger [] (pay 4 75 "USD" "captured"));
    vm_compute; reflexivity.
Defined.

Lemma capture_payment_invalid_or_missing_witness :
  (@ObjectId Hex.runtime "not-an-id" = None
   /\ capture_payment "not-an-id" (World (Some ledger) [])
      = (inl (HTTPException 400 "Invalid payment id"), World (Some ledger) []))
  /\ (@ObjectId Hex.runtime "0000000000000000000000ff" = Some 255%N
      /\ stored_payment ledger 255 = None
      /\ capture_payment "0000000000000000000000ff" (World (Some ledger) [])
         = (inl (HTTPException 404 "Payment not found"),
            World (Some ledger) ([] ++ [AFindOne "payment" (by_id 255)]))).
Proof.
  pose proof (capture_payment_invalid_or_missing (H:=Hex.runtime)
                "not-an-id" ledger []) as [H400 _].
  pose proof (capture_payment_invalid_or_missing (H:=Hex.runtime)
                "0000000000000000000000ff" ledger []) as [_ H404].
  split.
  - split; [vm_compute; reflexivity|]. apply H400. vm_compute; reflexivity.
  - split; [vm_compute; reflexivity|]. split; [vm_compute; reflexivity|].
    apply (H404 255%N); vm_compute; reflexivity.
Defined.

End CaptureRuns.

(** ** Authorization *)

Lemma doc_oid_le_max (l : list document) (x : document) :
  x ∈ l -> (doc_oid x <= foldr N.max 0 (doc_oid <$> l))%N.
Proof.
  induction l as [|y l IH]; intros Hin.
  - by apply elem_of_nil in Hin.
  - apply elem_of_cons in Hin as [->|Hin]; cbn; [lia|].
    specialize (IH Hin). lia.
Qed.

(** The id [insert_one] generates is carried by no document of the
    collection. *)
Lemma new_oid_fresh (l : list document) (x : document) :
  x ∈ l -> x !! "_id" ≠ Some (VOid (new_oid l)).
Proof.
  intros Hin Hid. pose proof (doc_oid_le_max l x Hin) as Hle.
  assert (doc_oid x = new_oid l) as Heq by (unfold doc_oid; by rewrite Hid).
  rewrite Heq in Hle. unfold new_oid in Hle. lia.
Qed.

Lemma filter_none {A} (P : A -> Prop) `{!forall x, Decision (P x)} (l : list A) :
  (forall x, x ∈ l -> ~ P x) -> filter P l = [].
Proof.
  induction l as [|y l IH]; intros Hno; [done|].
  rewrite filter_cons_False.
  - apply IH. intros x Hx. apply Hno. by right.
  - apply Hno. by left.
Qed.

Lemma stored_payment_after_insert (d : database) (doc : document) :
  let o := new_oid (collection "payment" d) in
  stored_payment
    (<["payment"%string := collection "payment" d ++ [<["_id" := VOid o]> doc]]> d) o
  = Some (<["_id" := VOid o]> doc).
Proof.
  intros o. unfold stored_payment. rewrite collection_insert, filter_app.
  rewrite filter_none.
  - rewrite filter_cons_True; [done|].
    apply matches_by_id. by rewrite lookup_insert_eq.
  - intros x Hx Hm%matches_by_id. by apply (new_oid_fresh _ x Hx).
Qed.

(** The record [authorize_payment] hands to the store. *)
Lemma authorize_data_lookup (p : Payment) (o : oid) :
  let doc := <["_id" := VOid o]> (<["status" := VStr "authorized"]> (model_dump p)) in
  doc !! "_id" = Some (VOid o)
  /\ doc !! "amount" = Some (VInt (amount p))
  /\ doc !! "currency" = Some (VStr (currency p))
  /\ doc !! "description" = Some (opt_str (description p))
  /\ doc !! "customer_id" = Some (opt_str (customer_id p))
  /\ doc !! "status" = Some (VStr "authorized")
  /\ doc !! "version" = None.
Proof. unfold model_dump. cbv zeta. repeat split; by simplify_map_eq. Qed.

Lemma Payment_errors_nil (b : PaymentBody) :
  1 <= body_amount b ->
  String.length (body_currency b) = 3%nat ->
  (body_status b = None \/ exists st, body_status b = Some (status_str st)) ->
  Payment_errors b = [].
Proof.
  intros Ha Hc Hs. unfold Payment_errors.
  destruct (decide (1 <= body_amount b)); [|done].
  destruct (decide (3 <= String.length (body_currency b) <= 3)%nat);
    [|exfalso; lia].
  destruct Hs as [->|[st ->]]; [done|]. by destruct st.
Qed.

Section Authorize.
Context `{Runtime}.

Lemma authorize_payment_run (p : Payment) (d : database) (l : list access) :
  let data := <["status" := VStr "authorized"]> (model_dump p) in
  let o := new_oid (collection "payment" d) in
  authorize_payment p (World (Some d) l)
  = (inr {["id"%string := VStr (oid_str o)]},
     World (Some (<["payment"%string :=
                      collection "payment" d ++ [<["_id" := VOid o]> data]]> d))
           (l ++ [AInsertOne "payment" data])).
Proof. reflexivity. Qed.

Lemma post_api_payments_valid (b : PaymentBody) (w : world) :
  Payment_errors b = [] ->
  post_api_payments b w
  = authorize_payment
      {| amount := body_amount b;
         currency := body_currency b;
         description := body_description b;
         customer_id := body_customer_id b;
         status := default authorized (body_status b ≫= parse_status) |} w.
Proof. intros He. unfold post_api_payments, Payment_validate. by rewrite He. Qed.

Lemma post_api_payments_run (b : PaymentBody) (d : database) (l : list access) :
  1 <= body_amount b ->
  String.length (body_currency b) = 3%nat ->
  (body_status b = None \/ exists st, body_status b = Some (status_str st)) ->
  exists p : Payment,
    amount p = body_amount b
    /\ currency p = body_currency b
    /\ description p = body_description b
    /\ customer_id p = body_customer_id b
    /\ let data := <["status" := VStr "authorized"]> (model_dump p) in
       let o := new_oid (collection "payment" d) in
       post_api_payments b (World (Some d) l)
       = (inr {["id"%string := VStr (oid_str o)]},
          World (Some (<["payment"%string :=
                           collection "payment" d ++ [<["_id" := VOid o]> data]]> d))
                (l ++ [AInsertOne "payment" data])).
Proof.
  intros Ha Hc Hs. eexists. repeat split; cycle -1.
  - rewrite post_api_payments_valid by by apply Payment_errors_nil.
    apply authorize_payment_run.
  - done.
  - done.
  - done.
  - done.
Qed.

(** C3, as the code has it. For every request with amount at least 1, a
    currency of 3 characters and a status that is absent or one of the
    three literals, on an available database, [POST /api/payments] succeeds
    and the payment record it creates has status ['authorized']; the record
    has no version field. *)
Theorem post_api_payments_creates_authorized (b : PaymentBody) (d : database)
    (l : list access) :
  1 <= body_amount b ->
  String.length (body_currency b) = 3%nat ->
  (body_status b = None \/ exists st, body_status b = Some (status_str st)) ->
  let run := post_api_payments b (World (Some d) l) in
  exists (o : oid) (doc : document) (d' : database),
    fst run = inr {["id"%string := VStr (oid_str o)]}
    /\ db (snd run) = Some d'
    /\ collection "payment" d' = collection "payment" d ++ [doc]
    /\ stored_payment d' o = Some doc
    /\ doc !! "status" = Some (VStr "authorized")
    /\ doc !! "version" = None.
Proof.
  intros Ha Hc Hs run.
  destruct (post_api_payments_run b d l Ha Hc Hs) as (p & _ & _ & _ & _ & Hrun).
  cbv zeta in Hrun. unfold run. rewrite Hrun. cbn [fst snd db].
  pose proof (authorize_data_lookup p (new_oid (collection "payment" d)))
    as (_ & _ & _ & _ & _ & Hst & Hv).
  eexists _, _, _. split; [reflexivity|]. split; [reflexivity|].
  split; [apply collection_insert|].
  split; [apply stored_payment_after_insert|]. by split.
Qed.

(** C4, as the code has it. [POST /api/payments] stores the currency of an
    accepted request exactly as it was given, with no change of case. *)
Theorem post_api_payments_currency_verbatim (b : PaymentBody) (d : database)
    (l : list access) :
  1 <= body_amount b ->
  String.length (body_currency b) = 3%nat ->
  (body_status b = None \/ exists st, body_status b = Some (status_str st)) ->
  let run := post_api_payments b (World (Some d) l) in
  exists doc : document,
    payments (snd run) = collection "payment" d ++ [doc]
    /\ doc !! "currency" = Some (VStr (body_currency b)).
Proof.
  intros Ha Hc Hs run.
  destruct (post_api_payments_run b d l Ha Hc Hs) as (p & _ & Hcur & _ & _ & Hrun).
  cbv zeta in Hrun. unfold run. rewrite Hrun. unfold payments. cbn [fst snd db].
  pose proof (authorize_data_lookup p (new_oid (collection "payment" d)))
    as (_ & _ & Hc' & _).
  eexists. split; [apply collection_insert|]. by rewrite <- Hcur.
Qed.

(** C5, as the code has it. [POST /api/payments] does not look the customer
    up: for an accepted request that carries a customer id, whether or not
    a customer is stored under it, the call succeeds, the payment record is
    created with the customer id as given, and the only store access is the
    insertion of the payment. *)
Theorem post_api_payments_ignores_customer (b : PaymentBody) (d : database)
    (l : list access) (cid : string) :
  1 <= body_amount b ->
  String.length (body_currency b) = 3%nat ->
  (body_status b = None \/ exists st, body_status b = Some (status_str st)) ->
  body_customer_id b = Some cid ->
  let run := post_api_payments b (World (Some d) l) in
  exists (o : oid) (doc data : document),
    fst run = inr {["id"%string := VStr (oid_str o)]}
    /\ payments (snd run) = collection "payment" d ++ [doc]
    /\ doc !! "customer_id" = Some (VStr cid)
    /\ log (snd run) = l ++ [AInsertOne "payment" data].
Proof.
  intros Ha Hc Hs Hcid run.
  destruct (post_api_payments_run b d l Ha Hc Hs) as (p & _ & _ & _ & Hc' & Hrun).
  cbv zeta in Hrun. unfold run. rewrite Hrun. unfold payments.
  cbn [fst snd db log].
  pose proof (authorize_data_lookup p (new_oid (collection "payment" d)))
    as (_ & _ & _ & _ & Hl & _).
  eexists _, _, _. split; [reflexivity|]. split; [apply collection_insert|].
  split; [|reflexivity]. by rewrite Hl, Hc', Hcid.
Qed.

(** C7. A request with amount 0 is answered with the validation error,
    which names the field [amount], and the handler is not called: the
    world is returned as it was, with no record created and no store
    access made. *)
Theorem post_api_payments_zero_amount_rejected (b : PaymentBody) (w : world) :
  body_amount b = 0 ->
  exists errs : list string,
    post_api_payments b w = (inl (RequestValidationError errs), w)
    /\ "amount"%string ∈ errs
    /\ payments (snd (post_api_payments b w)) = payments w
    /\ log (snd (post_api_payments b w)) = log w.
Proof.
  intros Ha. unfold post_api_payments, Payment_validate.
  assert (exists rest, Payment_errors b = "amount"%string :: rest) as [rest He].
  { unfold Payment_errors. rewrite Ha.
    destruct (decide (1 <= 0)); [lia|]. by eexists. }
  rewrite He. exists ("amount"%string :: rest).
  split; [reflexivity|]. split; [by left|]. by split.
Qed.

(** C8. Whatever status the payload carries, ['authorized'], ['captured']
    or ['failed'], on an available database [authorize_payment] succeeds
    and the record it stores, found under the id it returns, has status
    ['authorized']. *)
Theorem authorize_payment_stores_authorized (p : Payment) (d : database)
    (l : list access) :
  let run := authorize_payment p (World (Some d) l) in
  exists (o : oid) (doc : document) (d' : database),
    fst run = inr {["id"%string := VStr (oid_str o)]}
    /\ db (snd run) = Some d'
    /\ collection "payment" d' = collection "payment" d ++ [doc]
    /\ stored_payment d' o = Some doc
    /\ doc !! "status" = Some (VStr "authorized").
Proof.
  intros run. unfold run. rewrite authorize_payment_run. cbn [fst snd db].
  pose proof (authorize_data_lookup p (new_oid (collection "payment" d)))
    as (_ & _ & _ & _ & _ & Hst & _).
  eexists _, _, _. split; [reflexivity|]. split; [reflexivity|].
  split; [apply collection_insert|].
  split; [apply stored_payment_after_insert | done].
Qed.

End Authorize.

(** Runs on the empty database and on the ledger. *)
Section AuthorizeRuns.
Local Existing Instance Hex.runtime.

(** C3 fails on the code. Authorizing amount 1000 in "USD" on the empty
    database succeeds and creates a record with status ['authorized'], but
    the record has no version field: no stored payment has version 0. *)
Lemma authorize_version_counterexample :
  let b := body 1000 "USD" None None in
  let run := post_api_payments b empty_world in
  1 <= body_amount b
  /\ String.length (body_currency b) = 3%nat
  /\ fst run = inr {["id"%string := VStr "000000000000000000000001"]}
  /\ payments (snd run) = [pay 1 1000 "USD" "authorized"]
  /\ pay 1 1000 "USD" "authorized" !! "version" = None
  /\ ~ (exists doc : document,
          doc ∈ payments (snd run) /\ doc !! "version" = Some (VInt 0)).
Proof.
  cbv zeta.
  assert (payments (snd (post_api_payments (body 1000 "USD" None None) empty_world))
          = [pay 1 1000 "USD" "authorized"]) as Hp by (vm_compute; reflexivity).
  split; [vm_compute; discriminate|]. split; [reflexivity|].
  split; [vm_compute; reflexivity|]. split; [exact Hp|].
  split; [vm_compute; reflexivity|].
  intros (doc & Hin & Hv). rewrite Hp in Hin.
  apply list_elem_of_singleton in Hin. subst doc.
  vm_compute in Hv. discriminate.
Qed.

Lemma post_api_payments_creates_authorized_witness :
  let b := body 1000 "USD" None (Some "captured"%string) in
  1 <= body_amount b
  /\ String.length (body_currency b) = 3%nat
  /\ (body_status b = None \/ exists st, body_status b = Some (status_str st))
  /\ let run := post_api_payments b (World (Some ledger) []) in
     exists (o : oid) (doc : document) (d' : database),
       fst run = inr {["id"%string := VStr (oid_str o)]}
       /\ db (snd run) = Some d'
       /\ collection "payment" d' = collection "payment" ledger ++ [doc]
       /\ stored_payment d' o = Some doc
       /\ doc !! "status" = Some (VStr "authorized")
       /\ doc !! "version" = None.
Proof.
  cbv zeta. split; [vm_compute; discriminate|]. split; [reflexivity|].
  split; [right; by exists captured|].
  apply (post_api_payments_creates_authorized (H:=Hex.runtime)
           (body 1000 "USD" None (Some "captured"%string)) ledger []).
  - vm_compute; discriminate.
  - reflexivity.
  - right. by exists captured.
Defined.

(** C4 fails on the code. Authorizing with currency "usd" stores the
    currency "usd", not "USD". *)
Lemma authorize_currency_counterexample :
  let b := body 1000 "usd" None None in
  let run := post_api_payments b empty_world in
  1 <= body_amount b
  /\ String.length (body_currency b) = 3%nat
  /\ payments (snd run) = [pay 1 1000 "usd" "authorized"]
  /\ pay 1 1000 "usd" "authorized" !! "currency" = Some (VStr "usd")
  /\ ~ (exists doc : document,
          doc ∈ payments (snd run) /\ doc !! "currency" = Some (VStr "USD")).
Proof.
  cbv zeta.
  assert (payments (snd (post_api_payments (body 1000 "usd" None None) empty_world))
          = [pay 1 1000 "usd" "authorized"]) as Hp by (vm_compute; reflexivity).
  split; [vm_compute; discriminate|]. split; [reflexivity|].
  split; [exact Hp|]. split; [vm_compute; reflexivity|].
  intros (doc & Hin & Hv). rewrite Hp in Hin.
  apply list_elem_of_singleton in Hin. subst doc.
  vm_compute in Hv. discriminate.
Qed.

Lemma post_api_payments_currency_verbatim_witness :
  let b := body 1000 "usd" None None in
  1 <= body_amount b
  /\ String.length (body_currency b) = 3%nat
  /\ (body_status b = None \/ exists st, body_status b = Some (status_str st))
  /\ let run := post_api_payments b (World (Some ledger) []) in
     exists doc : document,
       payments (snd run) = collection "payment" ledger ++ [doc]
       /\ doc !! "currency" = Some (VStr (body_currency b)).
Proof.
  cbv zeta. split; [vm_compute; discriminate|]. split; [reflexivity|].
  split; [by left|].
  apply (post_api_payments_currency_verbatim (H:=Hex.runtime)
           (body 1000 "usd" None None) ledger []).
  - vm_compute; discriminate.
  - reflexivity.
  - by left.
Defined.

(** C5 fails on the code. With no customer stored at all, authorizing
    amount 500 in "USD" for the customer id "nonexistent" raises no error:
    it returns a new id and the payment record is created. *)
Lemma authorize_unknown_customer_counterexample :
  let b := body 500 "USD" (Some "nonexistent"%string) None in
  let run := post_api_payments b empty_world in
  (exists d, db empty_world = Some d /\ collection "customer" d = [])
  /\ payments empty_world = []
  /\ (forall e : exn, fst run <> inl e)
  /\ fst run = inr {["id"%string := VStr "000000000000000000000001"]}
  /\ exists doc : document,
       payments (snd run) = [doc]
       /\ doc !! "customer_id" = Some (VStr "nonexistent")
       /\ doc !! "status" = Some (VStr "authorized").
Proof.
  cbv zeta. split; [by exists ∅|]. split; [reflexivity|]. split.
  { intros e. vm_compute. discriminate. }
  split; [vm_compute; reflexivity|].
  exists (<["customer_id" := VStr "nonexistent"]> (pay 1 500 "USD" "authorized")).
  repeat split; vm_compute; reflexivity.
Qed.

Lemma post_api_payments_ignores_customer_witness :
  let b := body 500 "USD" (Some "nonexistent"%string) None in
  1 <= body_amount b
  /\ String.length (body_currency b) = 3%nat
  /\ (body_status b = None \/ exists st, body_status b = Some (status_str st))
  /\ body_customer_id b = Some "nonexistent"%string
  /\ let run := post_api_payments b (World (Some ledger) []) in
     exists (o : oid) (doc data : document),
       fst run = inr {["id"%string := VStr (oid_str o)]}
       /\ payments (snd run) = collection "payment" ledger ++ [doc]
       /\ doc !! "customer_id" = Some (VStr "nonexistent")
       /\ log (snd run) = [] ++ [AInsertOne "payment" data].
Proof.
  cbv zeta. split; [vm_compute; discriminate|]. split; [reflexivity|].
  split; [by left|]. split; [reflexivity|].
  apply (post_api_payments_ignores_customer (H:=Hex.runtime)
           (body 500 "USD" (Some "nonexistent"%string) None) ledger []
           "nonexistent").
  - vm_compute; discriminate.
  - reflexivity.
  - by left.
  - reflexivity.
Defined.

Lemma post_api_payments_zero_amount_rejected_witness :
  let b := body 0 "USD" None None in
  body_amount b = 0
  /\ exists errs : list string,
       post_api_payments b (World (Some ledger) [])
       = (inl (RequestValidationError errs), World (Some ledger) [])
       /\ "amount"%string ∈ errs
       /\ payments (snd (post_api_payments b (World (Some ledger) [])))
          = payments (World (Some ledger) [])
       /\ log (snd (post_api_payments b (World (Some ledger) [])))
          = log (World (Some ledger) []).
Proof.
  cbv zeta. split; [reflexivity|].
  apply (post_api_payments_zero_amount_rejected (H:=Hex.runtime)
           (body 0 "USD" None None) (World (Some ledger) [])).
  reflexivity.
Defined.

(** A payload that asks for ['captured'], or for ['failed'], is stored as
    ['authorized']. *)
Example authorize_payment_captured_payload :
  payments (snd (post_api_payments (body 1000 "USD" None (Some "captured"%string))
                   empty_world))
  = [pay 1 1000 "USD" "authorized"]
  /\ payments (snd (post_api_payments (body 1000 "USD" None (Some "failed"%string))
                      empty_world))
     = [pay 1 1000 "USD" "authorized"].
Proof. split; vm_compute; reflexivity. Qed.

End AuthorizeRuns.

(** ** Listing *)

(** The filter [{"status": s}]. *)
Lemma matches_status (s : string) (x : document) :
  matches {["status"%string := VStr s]} x <-> x !! "status" = Some (VStr s).
Proof. unfold matches. apply map_singleton_subseteq_l. Qed.

Lemma Forall_filter_take {A} (P : A -> Prop) `{!forall x, Decision (P x)}
    (n : nat) (l : list A) :
  Forall P (take n (filter P l)).
Proof.
  apply Forall_take, Forall_forall. intros x Hx.
  by apply list_elem_of_filter in Hx as [HP _].
Qed.

Section Listing.
Context `{Runtime}.

Lemma list_payments_run (limit : Z) (s : string) (d : database)
    (l : list access) :
  s ≠ ""%string ->
  let q : document := {["status"%string := VStr s]} in
  list_payments limit (Some s) (World (Some d) l)
  = (inr (serialize_doc
            <$> take (Z.to_nat limit) (filter (matches q) (collection "payment" d))),
     World (Some d) (l ++ [AFind "payment" q])).
Proof.
  intros Hs q. unfold list_payments, try_except, get_documents, bind.
  destruct (decide (s = ""%string)); [done|]. by rewrite find_run.
Qed.

(** C6. With a non-empty status filter, on an available database,
    [list_payments] returns the serialised form of stored payments all of
    which have exactly that status, in the order of the collection, which
    is the order of creation; nothing is written. *)
Theorem list_payments_status_filter (limit : Z) (s : string) (d : database)
    (l : list access) :
  s ≠ ""%string ->
  let run := list_payments limit (Some s) (World (Some d) l) in
  exists ds : list document,
    fst run = inr (serialize_doc <$> ds)
    /\ ds `sublist_of` collection "payment" d
    /\ Forall (fun x : document => x !! "status" = Some (VStr s)) ds
    /\ Forall (fun r : document => r !! "status" = Some (VStr s))
              (serialize_doc <$> ds)
    /\ db (snd run) = Some d.
Proof.
  intros Hs run. unfold run. rewrite list_payments_run by done.
  cbn [fst snd db]. eexists. split; [reflexivity|].
  assert (Forall (fun x : document => x !! "status" = Some (VStr s))
            (take (Z.to_nat limit)
               (filter (matches {["status"%string := VStr s]})
                  (collection "payment" d)))) as Hall.
  { eapply Forall_impl; [apply Forall_filter_take|].
    intros x Hx. by apply matches_status. }
  split.
  { etrans; [apply sublist_take | apply sublist_filter]. }
  split; [exact Hall|]. split; [|done].
  apply Forall_fmap. eapply Forall_impl; [exact Hall|].
  intros x Hx. by apply serialize_doc_str.
Qed.

End Listing.

Section ListingRuns.
Local Existing Instance Hex.runtime.

Lemma list_payments_status_filter_witness :
  "captured"%string ≠ ""%string
  /\ let run := list_payments 50 (Some "captured"%string) (World (Some ledger) []) in
     exists ds : list document,
       fst run = inr (serialize_doc <$> ds)
       /\ ds `sublist_of` collection "payment" ledger
       /\ Forall (fun x : document => x !! "status" = Some (VStr "captured")) ds
       /\ Forall (fun r : document => r !! "status" = Some (VStr "captured"))
                 (serialize_doc <$> ds)
       /\ db (snd run) = Some ledger.
Proof.
  split; [discriminate|].
  apply (list_payments_status_filter (H:=Hex.runtime) 50 "captured" ledger []).
  discriminate.
Defined.

(** On the ledger the filter "captured" yields payments 2 and 4, in that
    order. *)
Example list_payments_captured_ledger :
  fst (list_payments 50 (Some "captured"%string) (World (Some ledger) []))
  = inr [ serialize_doc (pay 2 250 "EUR" "captured");
          serialize_doc (pay 4 75 "USD" "captured") ].
Proof. vm_compute; reflexivity. Qed.

End ListingRuns.

(** ** Serialisation of a document ([serialize_doc]) *)

Section Serialize.
Context `{Runtime}.

Lemma iso_value_has_isoformat (v : value) : has_isoformat (iso_value v) = false.
Proof. by destruct v. Qed.

Lemma iso_value_fixed (v : value) : has_isoformat v = false -> iso_value v = v.
Proof. by destruct v. Qed.

(** Lookups in a serialised document. *)
Lemma serialize_doc_lookup_raw_id (doc : document) :
  serialize_doc doc !! "_id" = None.
Proof.
  unfold serialize_doc. rewrite lookup_fmap.
  destruct (doc !! "_id") as [v|] eqn:Hid; [|by rewrite Hid].
  rewrite lookup_insert_ne by done. by rewrite lookup_delete_eq.
Qed.

Lemma serialize_doc_lookup_id (doc : document) (v : value) :
  doc !! "_id" = Some v ->
  serialize_doc doc !! "id" = Some (VStr (py_str v)).
Proof.
  intros Hid. unfold serialize_doc. rewrite lookup_fmap, Hid.
  by rewrite lookup_insert_eq.
Qed.

Lemma serialize_doc_lookup_other (doc : document) (k : string) :
  k ≠ "_id"%string -> k ≠ "id"%string ->
  serialize_doc doc !! k = iso_value <$> doc !! k.
Proof.
  intros Hk1 Hk2. unfold serialize_doc. rewrite lookup_fmap.
  destruct (doc !! "_id") as [v|]; [|done].
  rewrite lookup_insert_ne by done. by rewrite lookup_delete_ne.
Qed.

Lemma serialize_doc_lookup_plain (doc : document) (k : string) (v : value) :
  serialize_doc doc !! k = Some v -> has_isoformat v = false.
Proof.
  unfold serialize_doc. rewrite lookup_fmap.
  intros Hv. apply fmap_Some in Hv as (x & _ & ->).
  apply iso_value_has_isoformat.
Qed.

(** The key ["_id"] never survives: when the document has one, its text
    form is found under ["id"], whatever ["id"] held before; when it has
    none, ["id"] is treated as any other field. *)
Theorem serialize_doc_id_field (doc : document) :
  serialize_doc doc !! "_id" = None
  /\ serialize_doc doc !! "id"
     = match doc !! "_id" with
       | Some v => Some (VStr (py_str v))
       | None => iso_value <$> doc !! "id"
       end.
Proof.
  unfold serialize_doc. rewrite !lookup_fmap.
  destruct (doc !! "_id") as [v|] eqn:Hid.
  - rewrite lookup_insert_ne by done. rewrite lookup_delete_eq.
    by rewrite lookup_insert_eq.
  - by rewrite Hid.
Qed.

(** Every field other than ["_id"] and ["id"] is kept under its key, an
    instant replaced by its ISO text and any other value unchanged. *)
Theorem serialize_doc_other_fields (doc : document) (k : string) :
  k ≠ "_id"%string -> k ≠ "id"%string ->
  serialize_doc doc !! k = iso_value <$> doc !! k.
Proof.
  intros Hk1 Hk2. unfold serialize_doc. rewrite lookup_fmap.
  destruct (doc !! "_id") as [v|]; [|done].
  rewrite lookup_insert_ne by done. by rewrite lookup_delete_ne.
Qed.

(** No value of a serialised document has an [isoformat] attribute: no
    instant is left in it. *)
Theorem serialize_doc_no_instant (doc : document) :
  map_Forall (fun (_ : string) (v : value) => has_isoformat v = false)
             (serialize_doc doc).
Proof.
  intros k v. unfold serialize_doc. rewrite lookup_fmap.
  intros Hv. apply fmap_Some in Hv as (x & _ & ->).
  apply iso_value_has_isoformat.
Qed.

(** Serialising twice is serialising once. *)
Theorem serialize_doc_idempotent (doc : document) :
  serialize_doc (serialize_doc doc) = serialize_doc doc.
Proof.
  unfold serialize_doc at 1. rewrite serialize_doc_lookup_raw_id.
  apply map_eq. intros k. rewrite lookup_fmap.
  destruct (serialize_doc doc !! k) as [v|] eqn:Hk; [|done].
  cbn. f_equal. apply iso_value_fixed. by apply (serialize_doc_lookup_plain doc k).
Qed.

End Serialize.

Section SerializeRuns.
Local Existing Instance Hex.runtime.

Lemma serialize_doc_other_fields_witness :
  "amount"%string ≠ "_id"%string
  /\ "amount"%string ≠ "id"%string
  /\ serialize_doc (pay 2 250 "EUR" "captured") !! "amount"
     = iso_value <$> pay 2 250 "EUR" "captured" !! "amount".
Proof.
  split; [discriminate|]. split; [discriminate|].
  apply (serialize_doc_other_fields (H:=Hex.runtime)); discriminate.
Defined.

(** A stored record with an id and a creation instant, serialised. *)
Example serialize_doc_record :
  serialize_doc (<["created_at" := VDatetime 1700000000]> (pay 10 250 "EUR" "captured"))
  = {[ "id"%string := VStr "00000000000000000000000a";
       "amount"%string := VInt 250;
       "currency"%string := VStr "EUR";
       "description"%string := VNone;
       "customer_id"%string := VNone;
       "status"%string := VStr "captured";
       "created_at"%string := VStr "1700000000" ]}.
Proof. vm_compute; reflexivity. Qed.

End SerializeRuns.

(** ** More on capture *)

Lemma update_first_length (q upd : document) (l : list document) :
  length (update_first q upd l) = length l.
Proof.
  induction l as [|x l IH]; [done|]. cbn.
  destruct (decide (matches q x)); cbn; [done | by rewrite IH].
Qed.

(** Setting the status of the payment with one id leaves what is found
    under every other id as it was. *)
Lemma filter_update_first_other (o o' : oid) (l : list document) :
  o' ≠ o ->
  filter (matches (by_id o')) (update_first (by_id o) set_captured l)
  = filter (matches (by_id o')) l.
Proof.
  intros Hne. induction l as [|x l IH]; [done|]. cbn [update_first].
  destruct (decide (matches (by_id o) x)) as [Hx|Hx].
  - apply matches_by_id in Hx.
    rewrite (filter_cons_False _ x).
    2: { intros Hm%matches_by_id. congruence. }
    rewrite filter_cons_False; [done|].
    intros Hm%matches_by_id.
    rewrite lookup_union_r in Hm by by rewrite lookup_singleton_ne.
    congruence.
  - rewrite !filter_cons. by rewrite IH.
Qed.

Lemma set_captured_other_field (doc : document) (k : string) :
  k ≠ "status"%string -> (set_captured ∪ doc) !! k = doc !! k.
Proof. intros Hk. apply lookup_union_r. by rewrite lookup_singleton_ne. Qed.

Section CaptureMore.
Context `{Runtime}.

(** The run on an object id under which nothing is stored. *)
Lemma capture_payment_missing_run (pid : string) (o : oid)
    (d : database) (l : list access) :
  ObjectId pid = Some o ->
  stored_payment d o = None ->
  capture_payment pid (World (Some d) l)
  = (inl (HTTPException 404 "Payment not found"),
     World (Some d) (l ++ [AFindOne "payment" (by_id o)])).
Proof.
  intros Ho Hs. unfold capture_payment, bind, get_db. cbn [db].
  rewrite Ho. fold (by_id o). rewrite find_one_run.
  fold (stored_payment d o). by rewrite Hs.
Qed.

(** The handler, case by case. *)
Lemma capture_payment_cases (pid : string) (dbo : option database)
    (l : list access) :
  capture_payment pid (World dbo l)
  = match dbo with
    | None => (inl (HTTPException 500 "Database not available"), World None l)
    | Some d =>
      match ObjectId pid with
      | None => (inl (HTTPException 400 "Invalid payment id"), World (Some d) l)
      | Some o =>
        match stored_payment d o with
        | None => (inl (HTTPException 404 "Payment not found"),
                   World (Some d) (l ++ [AFindOne "payment" (by_id o)]))
        | Some doc =>
          if decide (doc !! "status" = Some (VStr "captured"))
          then (inr (serialize_doc doc),
                World (Some d) (l ++ [AFindOne "payment" (by_id o)]))
          else (inr (serialize_doc (set_captured ∪ doc)),
                World (Some (<["payment"%string :=
                                 update_first (by_id o) set_captured
                                   (collection "payment" d)]> d))
                      (l ++ [AFindOne "payment" (by_id o);
                             AUpdateOne "payment" (by_id o) set_captured;
                             AFindOne "payment" (by_id o)]))
        end
      end
    end.
Proof.
  destruct dbo as [d|]; [|reflexivity].
  destruct (ObjectId pid) as [o|] eqn:Ho.
  - destruct (stored_payment d o) as [doc|] eqn:Hs.
    + destruct (decide (doc !! "status" = Some (VStr "captured"))).
      * by apply capture_payment_captured_run.
      * by apply capture_payment_other_run.
    + by apply capture_payment_missing_run.
  - unfold capture_payment, bind, get_db. cbn [db]. by rewrite Ho.
Qed.

End CaptureMore.

Section CaptureProperties.
Context `{Runtime}.


(** Whenever [capture_payment] returns a record, the payment stored under
    the id after the call has status ['captured'] and the record returned
    is its serialised form. *)
Theorem capture_payment_success (pid : string) (w w' : world) (r : document) :
  capture_payment pid w = (inr r, w') ->
  exists (o : oid) (d' : database) (doc : document),
    ObjectId pid = Some o
    /\ db w' = Some d'
    /\ stored_payment d' o = Some doc
    /\ doc !! "status" = Some (VStr "captured")
    /\ r = serialize_doc doc
    /\ r !! "status" = Some (VStr "captured").
Proof.
  destruct w as [dbo l]. rewrite capture_payment_cases.
  destruct dbo as [d|]; [|discriminate].
  destruct (ObjectId pid) as [o|] eqn:Ho; [|discriminate].
  destruct (stored_payment d o) as [doc|] eqn:Hs; [|discriminate].
  destruct (decide (doc !! "status" = Some (VStr "captured"))) as [Hst|Hst].
  - intros [= <- <-]. exists o, d, doc. repeat split; try done.
    by apply serialize_doc_str.
  - intros [= <- <-]. eexists o, _, (set_captured ∪ doc). cbn [db].
    split; [done|]. split; [done|].
    split; [by apply stored_payment_after_update|].
    split; [apply set_captured_status|]. split; [done|].
    apply serialize_doc_str; [done..|]. apply set_captured_status.
Qed.

(** Capturing a stored payment whose status is not ['captured'] (an
    ['authorized'] one in particular) succeeds with three store accesses,
    read, update, read; the stored record afterwards has status
    ['captured'] and every other field as before, and it is the record
    returned. *)
Theorem capture_payment_sets_status_only (pid : string) (o : oid)
    (d : database) (l : list access) (doc : document) :
  ObjectId pid = Some o ->
  stored_payment d o = Some doc ->
  doc !! "status" ≠ Some (VStr "captured") ->
  let run := capture_payment pid (World (Some d) l) in
  exists (d' : database) (doc' : document),
    fst run = inr (serialize_doc doc')
    /\ db (snd run) = Some d'
    /\ stored_payment d' o = Some doc'
    /\ doc' !! "status" = Some (VStr "captured")
    /\ (forall k : string, k ≠ "status"%string -> doc' !! k = doc !! k)
    /\ log (snd run)
       = l ++ [AFindOne "payment" (by_id o);
               AUpdateOne "payment" (by_id o) set_captured;
               AFindOne "payment" (by_id o)].
Proof.
  intros Ho Hs Hst run. unfold run.
  rewrite (capture_payment_other_run pid o d l doc) by done.
  cbn [fst snd db log]. eexists _, (set_captured ∪ doc).
  split; [done|]. split; [done|].
  split; [by apply stored_payment_after_update|].
  split; [apply set_captured_status|]. split; [|done].
  intros k Hk. by apply set_captured_other_field.
Qed.

(** Whatever the id and whatever the outcome, [capture_payment] keeps the
    number of payment records, leaves every other collection as it was,
    and leaves what is stored under every other payment id as it was. *)
Theorem capture_payment_frame (pid : string) (d : database) (l : list access) :
  exists d' : database,
    db (snd (capture_payment pid (World (Some d) l))) = Some d'
    /\ length (collection "payment" d') = length (collection "payment" d)
    /\ (forall c : string, c ≠ "payment"%string ->
          collection c d' = collection c d)
    /\ (forall o o' : oid, ObjectId pid = Some o -> o' ≠ o ->
          stored_payment d' o' = stored_payment d o').
Proof.
  rewrite capture_payment_cases.
  destruct (ObjectId pid) as [o|] eqn:Ho; [|by exists d].
  destruct (stored_payment d o) as [doc|] eqn:Hs; [|by exists d].
  destruct (decide (doc !! "status" = Some (VStr "captured"))); [by exists d|].
  eexists. cbn [snd db]. split; [reflexivity|].
  split; [by rewrite collection_insert, update_first_length|].
  split.
  - intros c Hc. by apply collection_insert_ne.
  - intros o1 o' [= <-] Hne. unfold stored_payment.
    rewrite collection_insert. by rewrite filter_update_first_other.
Qed.

End CaptureProperties.

Section CapturePropertiesRuns.
Local Existing Instance Hex.runtime.


Lemma capture_payment_success_witness :
  capture_payment "000000000000000000000001" (World (Some ledger) [])
  = (inr (serialize_doc (pay 1 1000 "USD" "captured")),
     snd (capture_payment "000000000000000000000001" (World (Some ledger) [])))
  /\ exists (o : oid) (d' : database) (doc : document),
       @ObjectId Hex.runtime "000000000000000000000001" = Some o
       /\ db (snd (capture_payment "000000000000000000000001"
                     (World (Some ledger) []))) = Some d'
       /\ stored_payment d' o = Some doc
       /\ doc !! "status" = Some (VStr "captured")
       /\ serialize_doc (pay 1 1000 "USD" "captured") = serialize_doc doc
       /\ serialize_doc (pay 1 1000 "USD" "captured") !! "status"
          = Some (VStr "captured").
Proof.
  assert (capture_payment "000000000000000000000001" (World (Some ledger) [])
          = (inr (serialize_doc (pay 1 1000 "USD" "captured")),
             snd (capture_payment "000000000000000000000001"
                    (World (Some ledger) [])))) as Hrun
    by (vm_compute; reflexivity).
  split; [exact Hrun|].
  exact (capture_payment_success (H:=Hex.runtime) _ _ _ _ Hrun).
Defined.

Lemma capture_payment_sets_status_only_witness :
  @ObjectId Hex.runtime "000000000000000000000001" = Some 1%N
  /\ stored_payment ledger 1 = Some (pay 1 1000 "USD" "authorized")
  /\ pay 1 1000 "USD" "authorized" !! "status" ≠ Some (VStr "captured")
  /\ let run := capture_payment "000000000000000000000001"
                  (World (Some ledger) []) in
     exists (d' : database) (doc' : document),
       fst run = inr (serialize_doc doc')
       /\ db (snd run) = Some d'
       /\ stored_payment d' 1 = Some doc'
       /\ doc' !! "status" = Some (VStr "captured")
       /\ (forall k : string, k ≠ "status"%string ->
             doc' !! k = pay 1 1000 "USD" "authorized" !! k)
       /\ log (snd run)
          = [] ++ [AFindOne "payment" (by_id 1);
                   AUpdateOne "payment" (by_id 1) set_captured;
                   AFindOne "payment" (by_id 1)].
Proof.
  split; [vm_compute; reflexivity|]. split; [vm_compute; reflexivity|].
  split; [vm_compute; discriminate|].
  apply (capture_payment_sets_status_only (H:=Hex.runtime)
           "000000000000000000000001" 1%N ledger []
           (pay 1 1000 "USD" "authorized")).
  - vm_compute; reflexivity.
  - vm_compute; reflexivity.
  - vm_compute; discriminate.
Defined.

End CapturePropertiesRuns.

(** ** More on authorization *)

Lemma head_filter_app {A} (P : A -> Prop) `{!forall x, Decision (P x)}
    (l k : list A) (x : A) :
  head (filter P l) = Some x -> head (filter P (l ++ k)) = Some x.
Proof.
  intros Hh. rewrite filter_app.
  destruct (filter P l) as [|y ys]; [done|]. exact Hh.
Qed.

Lemma parse_status_Some (s : string) (st : PaymentStatus) :
  parse_status s = Some st <-> s = status_str st.
Proof.
  unfold parse_status. split.
  - repeat case_decide; intros [= <-]; by subst.
  - intros ->. by destruct st.
Qed.

Lemma Payment_errors_nil_inv (b : PaymentBody) :
  Payment_errors b = [] -> Payment_ok b.
Proof.
  intros He. unfold Payment_errors in He.
  apply app_eq_nil in He as [Ha He]. apply app_eq_nil in He as [Hc Hs].
  split; [by destruct (decide (1 <= body_amount b))|]. split.
  - destruct (decide (3 <= String.length (body_currency b) <= 3)%nat);
      [lia | done].
  - destruct (body_status b) as [s|]; [|by left]. right.
    destruct (parse_status s) as [st|] eqn:Hp; [|done].
    exists st. f_equal. by apply parse_status_Some.
Qed.

Section AuthorizeProperties.
Context `{Runtime}.

(** A request goes one of two ways.  If its amount is at least 1, its
    currency has exactly 3 characters and its status is absent or one of
    the three literals, the handler runs on an instance with the same
    amount, currency, description and customer id.  Otherwise the answer
    is the validation error with at least one field named, and the world
    is as it was. *)
Theorem post_api_payments_validation (b : PaymentBody) (w : world) :
  (Payment_ok b
   /\ exists p : Payment,
        post_api_payments b w = authorize_payment p w
        /\ amount p = body_amount b
        /\ currency p = body_currency b
        /\ description p = body_description b
        /\ customer_id p = body_customer_id b)
  \/ (~ Payment_ok b
      /\ exists errs : list string,
           errs ≠ []
           /\ post_api_payments b w = (inl (RequestValidationError errs), w)).
Proof.
  destruct (Payment_errors b) as [|f errs] eqn:He.
  - left. split; [by apply Payment_errors_nil_inv|]. eexists. split; [by apply post_api_payments_valid|done].
  - right. split.
    + intros (Ha & Hc & Hs). by rewrite Payment_errors_nil in He.
    + exists (f :: errs). split; [done|].
      unfold post_api_payments, Payment_validate. by rewrite He.
Qed.

(** What was sent is what is stored: for an accepted request on an
    available database, the record found under the returned id carries the
    amount, currency, description and customer id of the request. *)
Theorem post_api_payments_round_trip (b : PaymentBody) (d : database)
    (l : list access) :
  1 <= body_amount b ->
  String.length (body_currency b) = 3%nat ->
  (body_status b = None \/ exists st, body_status b = Some (status_str st)) ->
  let run := post_api_payments b (World (Some d) l) in
  exists (o : oid) (doc : document) (d' : database),
    fst run = inr {["id"%string := VStr (oid_str o)]}
    /\ db (snd run) = Some d'
    /\ stored_payment d' o = Some doc
    /\ doc !! "_id" = Some (VOid o)
    /\ doc !! "amount" = Some (VInt (body_amount b))
    /\ doc !! "currency" = Some (VStr (body_currency b))
    /\ doc !! "description" = Some (opt_str (body_description b))
    /\ doc !! "customer_id" = Some (opt_str (body_customer_id b)).
Proof.
  intros Ha Hc Hs run.
  destruct (post_api_payments_run b d l Ha Hc Hs)
    as (p & Hpa & Hpc & Hpd & Hpi & Hrun).
  cbv zeta in Hrun. unfold run. rewrite Hrun. cbn [fst snd db].
  pose proof (authorize_data_lookup p (new_oid (collection "payment" d)))
    as (Hid & Hamt & Hcur & Hdesc & Hcid & _).
  eexists _, _, _. split; [reflexivity|]. split; [reflexivity|].
  split; [apply stored_payment_after_insert|].
  rewrite <- Hpa, <- Hpc, <- Hpd, <- Hpi. by repeat split.
Qed.

(** Authorizing adds exactly one payment record, at the end, and touches
    nothing else: every other collection is as it was, and whatever was
    stored under a payment id is still stored under it. *)
Theorem authorize_payment_frame (p : Payment) (d : database) (l : list access) :
  exists (d' : database) (doc : document),
    db (snd (authorize_payment p (World (Some d) l))) = Some d'
    /\ collection "payment" d' = collection "payment" d ++ [doc]
    /\ (forall c : string, c ≠ "payment"%string ->
          collection c d' = collection c d)
    /\ (forall (o' : oid) (doc' : document),
          stored_payment d o' = Some doc' -> stored_payment d' o' = Some doc').
Proof.
  rewrite authorize_payment_run. cbn [snd db]. eexists _, _.
  split; [reflexivity|]. split; [apply collection_insert|]. split.
  - intros c Hc. by apply collection_insert_ne.
  - intros o' doc' Hs. unfold stored_payment. rewrite collection_insert.
    by apply head_filter_app.
Qed.

(** Authorize, then capture with the id that came back: provided the id
    text reads back as the id, the capture succeeds and returns the
    payment with status ['captured'], under its id, with the amount and
    currency of the request. *)
Theorem authorize_then_capture (b : PaymentBody) (d : database)
    (l : list access) :
  1 <= body_amount b ->
  String.length (body_currency b) = 3%nat ->
  (body_status b = None \/ exists st, body_status b = Some (status_str st)) ->
  ObjectId (oid_str (new_oid (collection "payment" d)))
  = Some (new_oid (collection "payment" d)) ->
  exists (pid : string) (r : document),
    fst (post_api_payments b (World (Some d) l)) = inr {["id"%string := VStr pid]}
    /\ fst (capture_payment pid (snd (post_api_payments b (World (Some d) l))))
       = inr r
    /\ r !! "id" = Some (VStr pid)
    /\ r !! "status" = Some (VStr "captured")
    /\ r !! "amount" = Some (VInt (body_amount b))
    /\ r !! "currency" = Some (VStr (body_currency b)).
Proof.
  intros Ha Hc Hs Hrt.
  destruct (post_api_payments_run b d l Ha Hc Hs)
    as (p & Hpa & Hpc & _ & _ & Hrun).
  cbv zeta in Hrun. rewrite Hrun. cbn [fst snd].
  set (o := new_oid (collection "payment" d)) in *.
  pose proof (authorize_data_lookup p o) as (Hid & Hamt & Hcur & _ & _ & Hst & _).
  cbv zeta in Hid, Hamt, Hcur, Hst.
  set (doc := <["_id" := VOid o]> (<["status" := VStr "authorized"]> (model_dump p)))
    in *.
  eexists _, _. split; [reflexivity|].
  rewrite (capture_payment_other_run (oid_str o) o _ _ doc).
  - cbn [fst]. split; [reflexivity|].
    split.
    { apply (serialize_doc_lookup_id _ (VOid o)).
      by rewrite set_captured_other_field. }
    split.
    { apply serialize_doc_str; [done..|]. apply set_captured_status. }
    split.
    + rewrite serialize_doc_lookup_other by done.
      rewrite set_captured_other_field by done. by rewrite Hamt, Hpa.
    + rewrite serialize_doc_lookup_other by done.
      rewrite set_captured_other_field by done. by rewrite Hcur, Hpc.
  - exact Hrt.
  - apply stored_payment_after_insert.
  - rewrite Hst. discriminate.
Qed.

End AuthorizeProperties.

Section AuthorizePropertiesRuns.
Local Existing Instance Hex.runtime.

Lemma post_api_payments_round_trip_witness :
  let b := body 500 "eur" (Some "cus_1"%string) None in
  1 <= body_amount b
  /\ String.length (body_currency b) = 3%nat
  /\ (body_status b = None \/ exists st, body_status b = Some (status_str st))
  /\ let run := post_api_payments b (World (Some ledger) []) in
     exists (o : oid) (doc : document) (d' : database),
       fst run = inr {["id"%string := VStr (oid_str o)]}
       /\ db (snd run) = Some d'
       /\ stored_payment d' o = Some doc
       /\ doc !! "_id" = Some (VOid o)
       /\ doc !! "amount" = Some (VInt (body_amount b))
       /\ doc !! "currency" = Some (VStr (body_currency b))
       /\ doc !! "description" = Some (opt_str (body_description b))
       /\ doc !! "customer_id" = Some (opt_str (body_customer_id b)).
Proof.
  cbv zeta. split; [vm_compute; discriminate|]. split; [reflexivity|].
  split; [by left|].
  apply (post_api_payments_round_trip (H:=Hex.runtime)
           (body 500 "eur" (Some "cus_1"%string) None) ledger []).
  - vm_compute; discriminate.
  - reflexivity.
  - by left.
Defined.

Lemma authorize_then_capture_witness :
  let b := body 500 "eur" None None in
  1 <= body_amount b
  /\ String.length (body_currency b) = 3%nat
  /\ (body_status b = None \/ exists st, body_status b = Some (status_str st))
  /\ @ObjectId Hex.runtime (oid_str (new_oid (collection "payment" ledger)))
     = Some (new_oid (collection "payment" ledger))
  /\ exists (pid : string) (r : document),
       fst (post_api_payments b (World (Some ledger) []))
       = inr {["id"%string := VStr pid]}
       /\ fst (capture_payment pid
                 (snd (post_api_payments b (World (Some ledger) []))))
          = inr r
       /\ r !! "id" = Some (VStr pid)
       /\ r !! "status" = Some (VStr "captured")
       /\ r !! "amount" = Some (VInt (body_amount b))
       /\ r !! "currency" = Some (VStr (body_currency b)).
Proof.
  cbv zeta. split; [vm_compute; discriminate|]. split; [reflexivity|].
  split; [by left|]. split; [vm_compute; reflexivity|].
  apply (authorize_then_capture (H:=Hex.runtime)
           (body 500 "eur" None None) ledger []).
  - vm_compute; discriminate.
  - reflexivity.
  - by left.
  - vm_compute; reflexivity.
Defined.

(** On the ledger the new payment gets id 5 and is captured under it. *)
Example authorize_then_capture_ledger :
  fst (capture_payment "000000000000000000000005"
         (snd (post_api_payments (body 500 "eur" None None)
                 (World (Some ledger) []))))
  = inr (serialize_doc (pay 5 500 "eur" "captured")).
Proof. vm_compute; reflexivity. Qed.

End AuthorizePropertiesRuns.

(** ** Listing, customers and the missing database *)


Lemma Customer_model_dump_lookup (c : Customer) (o : oid) :
  let doc := <["_id" := VOid o]> (Customer_model_dump c) in
  doc !! "_id" = Some (VOid o)
  /\ doc !! "name" = Some (VStr (name c))
  /\ doc !! "email" = Some (VStr (email c))
  /\ doc !! "business" = Some (opt_str (business c)).
Proof. unfold Customer_model_dump. cbv zeta. repeat split; by simplify_map_eq. Qed.

Section ListingProperties.
Context `{Runtime}.

Lemma get_documents_run (c : string) (q : document) (limit : Z)
    (d : database) (l : list access) :
  get_documents c q limit (World (Some d) l)
  = (inr (take (Z.to_nat limit) (filter (matches q) (collection c d))),
     World (Some d) (l ++ [AFind c q])).
Proof. reflexivity. Qed.


(** The two listings only read: whatever the arguments and the world,
    the database after the call is the database before it. *)
Theorem listings_read_only (limit : Z) (status : option string) (w : world) :
  db (snd (list_payments limit status w)) = db w
  /\ db (snd (list_customers limit w)) = db w.
Proof.
  destruct w as [[d|] l]; split; reflexivity.
Qed.

(** Every record [list_payments] returns is a serialised one: it has no
    ["_id"] key and holds no instant. *)
Theorem list_payments_records (limit : Z) (status : option string)
    (w : world) (rs : list document) :
  fst (list_payments limit status w) = inr rs ->
  Forall (fun r : document =>
            r !! "_id" = None
            /\ map_Forall (fun (_ : string) (v : value) =>
                             has_isoformat v = false) r) rs.
Proof.
  destruct w as [[d|] l]; [|discriminate].
  unfold list_payments, try_except, bind. rewrite get_documents_run.
  cbn [fst]. intros [= <-]. apply Forall_fmap, Forall_forall.
  intros x _. cbn. split; [apply serialize_doc_lookup_raw_id|].
  intros k v. apply serialize_doc_lookup_plain.
Qed.

(** [create_customer] on an available database succeeds for every
    payload, an empty name or email included: the record is appended to
    the customers with the name, email and business as given, and the
    payments are as they were. *)
Theorem create_customer_stores (c : Customer) (d : database) (l : list access) :
  let run := create_customer c (World (Some d) l) in
  exists (o : oid) (doc : document) (d' : database),
    fst run = inr {["id"%string := VStr (oid_str o)]}
    /\ db (snd run) = Some d'
    /\ collection "customer" d' = collection "customer" d ++ [doc]
    /\ doc !! "_id" = Some (VOid o)
    /\ doc !! "name" = Some (VStr (name c))
    /\ doc !! "email" = Some (VStr (email c))
    /\ doc !! "business" = Some (opt_str (business c))
    /\ collection "payment" d' = collection "payment" d.
Proof.
  cbv zeta.
  pose proof (Customer_model_dump_lookup c (new_oid (collection "customer" d)))
    as (Hid & Hn & He & Hb).
  eexists _, _, _. split; [reflexivity|]. cbn [snd db].
  split; [reflexivity|]. split; [apply collection_insert|].
  split; [exact Hid|]. split; [exact Hn|]. split; [exact He|].
  split; [exact Hb|]. by apply collection_insert_ne.
Qed.


(** With no database every handler answers with a 500 error and leaves
    the world as it was: no store access is made. *)
Theorem handlers_no_database (l : list access) (p : Payment) (c : Customer)
    (pid : string) (limit : Z) (status : option string) :
  let w := World None l in
  (exists detail, authorize_payment p w = (inl (HTTPException 500 detail), w))
  /\ (exists detail, create_customer c w = (inl (HTTPException 500 detail), w))
  /\ (exists detail, capture_payment pid w = (inl (HTTPException 500 detail), w))
  /\ (exists detail,
        list_payments limit status w = (inl (HTTPException 500 detail), w))
  /\ (exists detail, list_customers limit w = (inl (HTTPException 500 detail), w)).
Proof. cbv zeta. repeat split; eexists; reflexivity. Qed.

End ListingProperties.

Section ListingPropertiesRuns.
Local Existing Instance Hex.runtime.


Lemma list_payments_records_witness :
  fst (list_payments 50 (Some "captured"%string) (World (Some ledger) []))
  = inr [ serialize_doc (pay 2 250 "EUR" "captured");
          serialize_doc (pay 4 75 "USD" "captured") ]
  /\ Forall (fun r : document =>
               r !! "_id" = None
               /\ map_Forall (fun (_ : string) (v : value) =>
                                has_isoformat v = false) r)
            [ serialize_doc (pay 2 250 "EUR" "captured");
              serialize_doc (pay 4 75 "USD" "captured") ].
Proof.
  assert (fst (list_payments 50 (Some "captured"%string) (World (Some ledger) []))
          = inr [ serialize_doc (pay 2 250 "EUR" "captured");
                  serialize_doc (pay 4 75 "USD" "captured") ]) as Hrun
    by (vm_compute; reflexivity).
  split; [exact Hrun|].
  exact (list_payments_records (H:=Hex.runtime) _ _ _ _ Hrun).
Defined.

(** Without a filter the ledger is listed whole, in order, up to the
    limit. *)
Example list_payments_all_ledger :
  fst (list_payments 3 None (World (Some ledger) []))
  = inr [ serialize_doc (pay 1 1000 "USD" "authorized");
          serialize_doc (pay 2 250 "EUR" "captured");
          serialize_doc (pay 3 900 "GBP" "failed") ].
Proof. vm_compute; reflexivity. Qed.

End ListingPropertiesRuns.

(** ** The [User] schema *)

(** A [User] body is accepted exactly when its age is absent or lies
    between 0 and 120, both included; the instance then has the fields of
    the body, active unless the body says otherwise.  A body with an age
    out of that range is rejected on the field [age]. *)
Theorem User_validate_age (b : UserSchema.UserBody) :
  ((UserSchema.body_age b = None
    \/ exists a, UserSchema.body_age b = Some a /\ 0 <= a <= 120)
   /\ exists u : UserSchema.User,
        UserSchema.User_validate b = inr u
        /\ UserSchema.name u = UserSchema.body_name b
        /\ UserSchema.email u = UserSchema.body_email b
        /\ UserSchema.address u = UserSchema.body_address b
        /\ UserSchema.age u = UserSchema.body_age b
        /\ UserSchema.is_active u
           = match UserSchema.body_is_active b with
             | Some flag => flag
             | None => true
             end)
  \/ ((exists a, UserSchema.body_age b = Some a /\ (a < 0 \/ 120 < a))
      /\ UserSchema.User_validate b = inl (RequestValidationError ["age"%string])).
Proof.
  unfold UserSchema.User_validate, UserSchema.User_errors.
  destruct (UserSchema.body_age b) as [a|] eqn:Ha.
  - destruct (decide (0 <= a /\ a <= 120)) as [Hr|Hr].
    + left. split; [right; by exists a|].
      eexists. split; [reflexivity|]. cbn.
      by destruct (UserSchema.body_is_active b).
    + right. split; [|done]. exists a. split; [done|]. lia.
  - left. split; [by left|]. eexists. split; [reflexivity|]. cbn.
    by destruct (UserSchema.body_is_active b).
Qed.
